(** * yandex-checkout-node: the client facade of [lib/index.js]

    A shallow embedding of the YandexCheckout client: its constructor, the
    six raw calls ([_createPayment], ...) and the six public calls
    ([createPayment], ...), together with the fragment of JavaScript they
    rely on (dynamic values, [typeof], [||], [+], template literals,
    property reads and promise chaining).

    JavaScript numbers are IEEE 754 binary64 values, which is what the
    kernel's primitive [float] is, so numbers are embedded as [float]. *)

From Stdlib Require Import PrimFloat FloatOps SpecFloat Ascii String List.
From Stdlib Require Import ZArith Bool Lia DecimalString.
Import ListNotations.

#[local] Set Warnings "-register-all".
Local Open Scope list_scope.
Local Open Scope string_scope.

(** ** JavaScript values *)

(** The values that reach the client: primitives, arrays and plain objects
    holding data. An object is the list of its own properties in insertion
    order; keys are unique, as in every object. Symbols, BigInts and
    functions are not among them, so no property holds a callable. *)
Inductive value : Type :=
| Undefined
| Null
| Bool (b : bool)
| Number (n : float)
| Str (s : string)
| Arr (elems : list value)
| Obj (props : list (string * value)).

(** What the platform supplies and the repository does not define. *)
Class Platform : Type := {
  (** [require('http').createServer().timeout] *)
  http_server_timeout : float;
  (** [Number.prototype.toString], used when a number is concatenated *)
  Number_toString : float -> string
}.

(** An abrupt completion; the only one the facade can run into is the
    [TypeError] of a property read on [null] or [undefined]. *)
Inductive exn : Type := TypeError.

Inductive completion (A : Type) : Type :=
| Normal (a : A)
| Throw (e : exn).
Arguments Normal {A} a.
Arguments Throw {A} e.

Definition bind_completion {A B : Type}
  (c : completion A) (k : A -> completion B) : completion B :=
  match c with
  | Normal a => k a
  | Throw e => Throw e
  end.

Notation "'let!' x ':=' c 'in' k" := (bind_completion c (fun x => k))
  (at level 10, x name, c at level 100, k at level 200).

(** [typeof v === 'object'] *)
Definition typeof_object (v : value) : bool :=
  match v with
  | Null | Arr _ | Obj _ => true
  | _ => false
  end.

Fixpoint lookup (props : list (string * value)) (name : string) : value :=
  match props with
  | [] => Undefined
  | (k, v) :: rest => if String.eqb k name then v else lookup rest name
  end.

(** [v.name] for a name that no prototype defines (the client reads
    [shopId], [secretKey], [base_host], [base_path], [debug], [timeout]). *)
Definition js_get (v : value) (name : string) : completion value :=
  match v with
  | Undefined | Null => Throw TypeError
  | Obj props => Normal (lookup props name)
  | _ => Normal Undefined
  end.

(** ToBoolean *)
Definition truthy (v : value) : bool :=
  match v with
  | Undefined | Null => false
  | Bool b => b
  | Number n => negb (PrimFloat.eqb n 0%float || PrimFloat.is_nan n)
  | Str s => negb (String.eqb s "")
  | Arr _ | Obj _ => true
  end.

(** [a || b] *)
Definition js_or (a b : value) : value := if truthy a then a else b.

Section Coercions.
Context {platform : Platform}.

(** The string that ToString gives where it gives one; an array joins its
    elements with commas, holes of [null] and [undefined] printing as
    nothing, and a plain object prints as [[object Object]]. Where
    JavaScript throws instead (an object with a [toString] property of its
    own, which cannot be called: see [ToString] and [printable] below) the
    result has no counterpart in the program. *)
Fixpoint to_string (v : value) : string :=
  match v with
  | Undefined => "undefined"
  | Null => "null"
  | Bool true => "true"
  | Bool false => "false"
  | Number n => Number_toString n
  | Str s => s
  | Arr elems =>
      (fix join (l : list value) : string :=
         match l with
         | [] => ""
         | x :: rest =>
             let sx := match x with
                       | Undefined | Null => ""
                       | _ => to_string x
                       end in
             match rest with
             | [] => sx
             | _ :: _ => sx ++ "," ++ join rest
             end
         end) elems
  | Obj _ => "[object Object]"
  end.

(** ToPrimitive, on the values that [printable] accepts. *)
Definition to_primitive (v : value) : value :=
  match v with
  | Arr _ | Obj _ => Str (to_string v)
  | _ => v
  end.

(** ToNumber of a primitive that is not a string. *)
Definition to_number (p : value) : float :=
  match p with
  | Null => 0%float
  | Bool true => 1%float
  | Bool false => 0%float
  | Number n => n
  | _ => nan
  end.

(** [a + b]: concatenation as soon as one primitive is a string, the
    sum of the numbers otherwise. *)
Definition js_add (a b : value) : value :=
  let pa := to_primitive a in
  let pb := to_primitive b in
  match pa, pb with
  | Str _, _ | _, Str _ => Str (to_string pa ++ to_string pb)
  | _, _ => Number (PrimFloat.add (to_number pa) (to_number pb))
  end.
End Coercions.

(** *** Where the coercions throw *)

(** [props] has a property [name] of its own. *)
Definition has_own (props : list (string * value)) (name : string) : bool :=
  existsb (fun kv => String.eqb (fst kv) name) props.

(** The values that convert to a string, and to a primitive, without
    throwing. Converting an object calls its [toString]; a property
    [toString] of its own holds data, is skipped as not callable, and with
    [valueOf] giving back the object itself the conversion ends in a
    [TypeError]. *)
Fixpoint printable (v : value) : bool :=
  match v with
  | Arr elems => forallb printable elems
  | Obj props => negb (has_own props "toString")
  | _ => true
  end.

Section ThrowingCoercions.
Context {platform : Platform}.

(** ToString with its abrupt completion, as a template literal applies it. *)
Fixpoint ToString (v : value) : completion string :=
  match v with
  | Undefined => Normal "undefined"
  | Null => Normal "null"
  | Bool true => Normal "true"
  | Bool false => Normal "false"
  | Number n => Normal (Number_toString n)
  | Str s => Normal s
  | Arr elems =>
      (fix join (l : list value) : completion string :=
         match l with
         | [] => Normal ""
         | x :: rest =>
             bind_completion
               match x with
               | Undefined | Null => Normal ""
               | _ => ToString x
               end
               (fun sx =>
                  match rest with
                  | [] => Normal sx
                  | _ :: _ =>
                      bind_completion (join rest)
                        (fun srest => Normal (sx ++ "," ++ srest))
                  end)
         end) elems
  | Obj props =>
      if has_own props "toString" then Throw TypeError
      else Normal "[object Object]"
  end.
End ThrowingCoercions.

(** ** The client and its constructor *)

Record Client : Type := {
shopId : value;
secretKey : value;
root : value;
debug : value;
timeout : value
}.

Definition DEFAULT_BASE_HOST : value := Str "https://api.yookassa.ru".
Definition DEFAULT_BASE_PATH : value := Str "/v3/".
Definition DEFAULT_DEBUG : value := Bool false.

Section Constructor.
Context {platform : Platform}.

Definition DEFAULT_TIMEOUT : value := Number http_server_timeout.

(** [new YandexCheckout(shopId, secretKey)]; an argument the caller
    leaves out is [Undefined]. *)
Definition YandexCheckout (shopId secretKey : value) : completion Client :=
  let options :=
    if typeof_object shopId then shopId
    else Obj [("shopId", shopId); ("secretKey", secretKey)] in
  let! o_shopId := js_get options "shopId" in
  let! o_secretKey := js_get options "secretKey" in
  let! o_base_host := js_get options "base_host" in
  let! o_base_path := js_get options "base_path" in
  let! o_debug := js_get options "debug" in
  let! o_timeout := js_get options "timeout" in
  Normal {|
    shopId := o_shopId;
    secretKey := o_secretKey;
    root := js_add (js_or o_base_host DEFAULT_BASE_HOST)
                   (js_or o_base_path DEFAULT_BASE_PATH);
    debug := js_or o_debug DEFAULT_DEBUG;
    timeout := js_or o_timeout DEFAULT_TIMEOUT
  |}.

(** [init], the module's export. *)
Definition init (shopId secretKey : value) : completion Client :=
  YandexCheckout shopId secretKey.
End Constructor.

(** ** The wire *)

Inductive Method : Type := GET | POST.

(** One outgoing HTTP request, as handed to the HTTP library. *)
Record HttpRequest : Type := {
  method : Method;
  uri : value;
  auth_user : value;
  auth_pass : value;
  headers : list (string * value);
  body : value;
  request_timeout : value
}.

Inductive Cause : Type :=
| NetworkFailure (message : string)
| MalformedJSON.

(** What comes back for one request: no response at all, or a status code
    with the body as the JSON parser read it ([None] when it is not JSON). *)
Inductive HttpOutcome : Type :=
| NoResponse (message : string)
| HttpResponse (status : Z) (parsed : option value).

Inductive Error : Type :=
| TransportError (cause : Cause)
| APIError (status : Z) (error_body : option value).

(** A settled promise. *)
Inductive Settled (A : Type) : Type :=
| Resolved (a : A)
| Rejected (e : Error).
Arguments Resolved {A} a.
Arguments Rejected {A} e.

(** The remote side: what it answers to a request, given everything that
    was sent before. *)
Definition Network : Type := list HttpRequest -> HttpRequest -> HttpOutcome.

(** The state a call runs in: the client instance the method is invoked on
    ([this]) and the requests that have left the process so far. *)
Record World : Type := {
  this : Client;
  wire : list HttpRequest
}.

(** A promise-returning method: run against a network from a world, it
    leaves a world and a settled promise. *)
Definition Promise (A : Type) : Type := Network -> World -> World * Settled A.

(** [p.then(f)] for a callback that returns a plain value: the callback runs
    on fulfilment, a rejection passes through. *)
Definition then_ {A B : Type} (p : Promise A) (f : A -> B) : Promise B :=
  fun net w =>
    match p net w with
    | (w', Resolved a) => (w', Resolved (f a))
    | (w', Rejected e) => (w', Rejected e)
    end.

(** ** The transport utility, [utils.request] *)

Definition is_2xx (status : Z) : bool :=
  ((200 <=? status) && (status <? 300))%Z.

Definition IDEMPOTENCE_HEADER : string := "Idempotence-Key".

Section Transport.
Context {platform : Platform}.

(** Modelled from the spec: [lib/utils.js] is missing; section 4.1 gives the
    request it builds: the URL is the configured base followed by the
    resource path, basic authentication is the shop id and the secret key,
    the content type is JSON, the body is the body argument, the
    idempotency key is a dedicated header when one is supplied, and the
    configured timeout applies. *)
Definition build_request (c : Client) (m : Method) (path : string)
  (data idempotenceKey : value) : HttpRequest :=
  {| method := m;
     uri := js_add (root c) (Str path);
     auth_user := shopId c;
     auth_pass := secretKey c;
     headers :=
       ("Content-Type", Str "application/json")
       :: match idempotenceKey with
          | Undefined => []
          | key => [(IDEMPOTENCE_HEADER, key)]
          end;
     body := data;
     request_timeout := timeout c |}.

(** Modelled from the spec: [lib/utils.js] is missing; section 4.1 maps a
    success status to the parsed body, any other status to an API error with
    the status and the parsed error body, and a failed connection or a body
    that is not JSON to a transport error with the cause. *)
Definition settle (o : HttpOutcome) : Settled value :=
  match o with
  | NoResponse message => Rejected (TransportError (NetworkFailure message))
  | HttpResponse status parsed =>
      if is_2xx status then
        match parsed with
        | Some data => Resolved data
        | None => Rejected (TransportError MalformedJSON)
        end
      else Rejected (APIError status parsed)
  end.

(** Modelled from the spec: [lib/utils.js] is missing; section 4.1 has
    [utils.request.call(this, method, path, data, idempotenceKey)] make a
    single attempt, never retried, and leave the client as it is. *)
Definition utils_request (m : Method) (path : string)
  (data idempotenceKey : value) : Promise value :=
  fun net w =>
    let req := build_request (this w) m path data idempotenceKey in
    ({| this := this w; wire := wire w ++ [req] |}, settle (net (wire w) req)).
End Transport.

(** ** Result models *)

(** Modelled from the spec: [lib/models/payment.js] is missing; section 3
    lists the fields of a Payment, each the response field of that name, and
    index.js passes the client instance as first argument. *)
Record Payment : Type := {
  payment_instance : Client;
  payment_id : value;
  payment_status : value;
  payment_paid : value;
  payment_amount : value;
  payment_payment_method : value;
  payment_confirmation : value;
  payment_created_at : value;
  payment_metadata : value;
  payment_recipient : value
}.

(** Modelled from the spec: [lib/models/refund.js] is missing; section 3
    lists the fields of a Refund, each the response field of that name. *)
Record Refund : Type := {
  refund_instance : Client;
  refund_id : value;
  refund_status : value;
  refund_amount : value;
  refund_payment_id : value;
  refund_created_at : value;
  refund_authorized_at : value
}.

(** The field [name] of a parsed response; a response that is not an
    object has none. *)
Definition field (data : value) (name : string) : value :=
  match data with
  | Obj props => lookup props name
  | _ => Undefined
  end.

(** Modelled from the spec: [new Payment(instance, data)] of the missing
    [lib/models/payment.js], a direct projection of the response fields. *)
Definition new_Payment (instance : Client) (data : value) : Payment :=
  {| payment_instance := instance;
     payment_id := field data "id";
     payment_status := field data "status";
     payment_paid := field data "paid";
     payment_amount := field data "amount";
     payment_payment_method := field data "payment_method";
     payment_confirmation := field data "confirmation";
     payment_created_at := field data "created_at";
     payment_metadata := field data "metadata";
     payment_recipient := field data "recipient" |}.

(** Modelled from the spec: [new Refund(instance, data)] of the missing
    [lib/models/refund.js], a direct projection of the response fields. *)
Definition new_Refund (instance : Client) (data : value) : Refund :=
  {| refund_instance := instance;
     refund_id := field data "id";
     refund_status := field data "status";
     refund_amount := field data "amount";
     refund_payment_id := field data "payment_id";
     refund_created_at := field data "created_at";
     refund_authorized_at := field data "authorized_at" |}.

(** ** The facade, [YandexCheckout.prototype] *)

Section Facade.
Context {platform : Platform}.

Definition _createPayment (payload idempotenceKey : value) : Promise value :=
  utils_request POST "payments" payload idempotenceKey.

Definition createPayment (payload idempotenceKey : value) : Promise Payment :=
  fun net w =>
    let _self := this w in
    then_ (_createPayment payload idempotenceKey)
          (fun data => new_Payment _self data) net w.

Definition _getPaymentInfo (paymentId idempotenceKey : value) : Promise value :=
  utils_request GET ("payments/" ++ to_string paymentId) (Obj []) idempotenceKey.

Definition getPayment (paymentId idempotenceKey : value) : Promise Payment :=
  fun net w =>
    let _self := this w in
    then_ (_getPaymentInfo paymentId idempotenceKey)
          (fun data => new_Payment _self data) net w.

Definition _capturePayment (paymentId amount idempotenceKey : value)
  : Promise value :=
  utils_request
    POST ("payments/" ++ to_string paymentId ++ "/capture")
    (Obj [("amount", amount)])
    idempotenceKey.

Definition capturePayment (paymentId amount idempotenceKey : value)
  : Promise Payment :=
  fun net w =>
    let _self := this w in
    then_ (_capturePayment paymentId amount idempotenceKey)
          (fun data => new_Payment _self data) net w.

Definition _cancelPayment (paymentId idempotenceKey : value) : Promise value :=
  utils_request
    POST ("payments/" ++ to_string paymentId ++ "/cancel") (Obj [])
    idempotenceKey.

Definition cancelPayment (paymentId idempotenceKey : value) : Promise Payment :=
  fun net w =>
    let _self := this w in
    then_ (_cancelPayment paymentId idempotenceKey)
          (fun data => new_Payment _self data) net w.

Definition _createRefund (paymentId amount idempotenceKey : value)
  : Promise value :=
  utils_request
    POST "refunds"
    (Obj [("amount", amount); ("payment_id", paymentId)])
    idempotenceKey.

Definition createRefund (paymentId amount idempotenceKey : value)
  : Promise Refund :=
  fun net w =>
    let _self := this w in
    then_ (_createRefund paymentId amount idempotenceKey)
          (fun data => new_Refund _self data) net w.

Definition _getRefundInfo (refundId idempotenceKey : value) : Promise value :=
  utils_request GET ("refunds/" ++ to_string refundId) (Obj []) idempotenceKey.

Definition getRefund (refundId idempotenceKey : value) : Promise Refund :=
  fun net w =>
    let _self := this w in
    then_ (_getRefundInfo refundId idempotenceKey)
          (fun data => new_Refund _self data) net w.

(** *** The six operations as one family *)

Inductive Operation : Type :=
| CreatePayment (payload : value)
| GetPayment (paymentId : value)
| CapturePayment (paymentId amount : value)
| CancelPayment (paymentId : value)
| CreateRefund (paymentId amount : value)
| GetRefund (refundId : value).

Inductive Model : Type :=
| PaymentModel (p : Payment)
| RefundModel (r : Refund).

(** The internal method of an operation. *)
Definition raw_call (op : Operation) (idempotenceKey : value) : Promise value :=
  match op with
  | CreatePayment payload => _createPayment payload idempotenceKey
  | GetPayment paymentId => _getPaymentInfo paymentId idempotenceKey
  | CapturePayment paymentId amount =>
      _capturePayment paymentId amount idempotenceKey
  | CancelPayment paymentId => _cancelPayment paymentId idempotenceKey
  | CreateRefund paymentId amount =>
      _createRefund paymentId amount idempotenceKey
  | GetRefund refundId => _getRefundInfo refundId idempotenceKey
  end.

Definition settled_map {A B : Type} (f : A -> B) (s : Settled A) : Settled B :=
  match s with
  | Resolved a => Resolved (f a)
  | Rejected e => Rejected e
  end.

Definition tag {A : Type} (f : A -> Model) (r : World * Settled A)
  : World * Settled Model :=
  (fst r, settled_map f (snd r)).

(** The public method of an operation. *)
Definition public_call (op : Operation) (idempotenceKey : value)
  : Promise Model :=
  fun net w =>
    match op with
    | CreatePayment payload =>
        tag PaymentModel (createPayment payload idempotenceKey net w)
    | GetPayment paymentId =>
        tag PaymentModel (getPayment paymentId idempotenceKey net w)
    | CapturePayment paymentId amount =>
        tag PaymentModel (capturePayment paymentId amount idempotenceKey net w)
    | CancelPayment paymentId =>
        tag PaymentModel (cancelPayment paymentId idempotenceKey net w)
    | CreateRefund paymentId amount =>
        tag RefundModel (createRefund paymentId amount idempotenceKey net w)
    | GetRefund refundId =>
        tag RefundModel (getRefund refundId idempotenceKey net w)
    end.

(** The model an operation builds from a resolved value. *)
Definition model_of (op : Operation) (instance : Client) (data : value) : Model :=
  match op with
  | CreatePayment _ | GetPayment _ | CapturePayment _ _ | CancelPayment _ =>
      PaymentModel (new_Payment instance data)
  | CreateRefund _ _ | GetRefund _ => RefundModel (new_Refund instance data)
  end.

(** A run of public calls, one after the other, on the same client. *)
Fixpoint session (calls : list (Operation * value)) (net : Network) (w : World)
  : World :=
  match calls with
  | [] => w
  | (op, idempotenceKey) :: rest =>
      session rest net (fst (public_call op idempotenceKey net w))
  end.

End Facade.

(** ** Vocabulary for the properties *)

(** The six property names the constructor reads. *)
Definition option_names : list string :=
  ["shopId"; "secretKey"; "base_host"; "base_path"; "debug"; "timeout"].

(** What a request is addressed to: its method and its URL. *)
Definition target (r : HttpRequest) : Method * value := (method r, uri r).

(** The identifier of an operation, if it has one, converts to a string:
    the template literal of its path does not throw. *)
Definition printable_operation (op : Operation) : bool :=
  match op with
  | CreatePayment _ | CreateRefund _ _ => true
  | GetPayment id | CapturePayment id _ | CancelPayment id | GetRefund id =>
      printable id
  end.

Section Resources.
Context {platform : Platform}.

(** Two operations name the same remote resource: the same kind of
    operation and, where it takes an identifier, identifiers that print
    alike. *)
Definition same_resource (op1 op2 : Operation) : Prop :=
  match op1, op2 with
  | CreatePayment _, CreatePayment _ => True
  | GetPayment a, GetPayment b => to_string a = to_string b
  | CapturePayment a _, CapturePayment b _ => to_string a = to_string b
  | CancelPayment a, CancelPayment b => to_string a = to_string b
  | CreateRefund _ _, CreateRefund _ _ => True
  | GetRefund a, GetRefund b => to_string a = to_string b
  | _, _ => False
  end.
End Resources.

(** ** Closed examples *)

(** The integer a number is, if it is one. *)
Definition integer_of (n : float) : option Z :=
  match Prim2SF n with
  | S754_zero _ => Some 0%Z
  | S754_finite negative m e =>
      let magnitude :=
        if (0 <=? e)%Z then Some (Z.pos m * 2 ^ e)%Z
        else if (Z.pos m mod 2 ^ (- e) =? 0)%Z
             then Some (Z.pos m / 2 ^ (- e))%Z
             else None in
      match magnitude with
      | Some z => Some (if negative then (- z)%Z else z)
      | None => None
      end
  | _ => None
  end.

(** A platform for the closed examples: Node 12, whose server timeout is two
    minutes. Numbers print as [Number.prototype.toString] prints them where
    that is plain: [NaN], the infinities, and the integers below 10^21 in
    decimal digits. The examples print no other number; those come out
    empty. *)
Definition example_Number_toString (n : float) : string :=
  if PrimFloat.is_nan n then "NaN"
  else if PrimFloat.eqb n infinity then "Infinity"
  else if PrimFloat.eqb n neg_infinity then "-Infinity"
  else match integer_of n with
       | Some z =>
           if (Z.abs z <? 10 ^ 21)%Z then NilZero.string_of_int (Z.to_int z)
           else ""
       | None => ""
       end.

Definition node12 : Platform :=
  {| http_server_timeout := 120000%float;
     Number_toString := example_Number_toString |}.

Definition example_client : Client :=
  {| shopId := Str "your_shop_id";
     secretKey := Str "your_secret_key";
     root := Str "https://api.yookassa.ru/v3/";
     debug := Bool false;
     timeout := Number 120000%float |}.

Definition example_world : World := {| this := example_client; wire := [] |}.

Definition example_amount : value :=
  Obj [("value", Str "2.00"); ("currency", Str "RUB")].

(** The payload, the key and the answer of the documented scenario. *)
Definition example_payload : value :=
  Obj [("amount", example_amount);
       ("payment_method_data", Obj [("type", Str "bank_card")]);
       ("confirmation",
        Obj [("type", Str "redirect");
             ("return_url", Str "https://example.com")])].

Definition example_key : value := Str "6daac9fa-342d-4264-91c5-b5eafd1a0010".

Definition example_payment_id : value :=
  Str "215d8da0-000f-50be-b000-0003308c89be".

Definition example_payment : value :=
  Obj [("id", example_payment_id);
       ("status", Str "waiting_for_capture");
       ("paid", Bool true);
       ("amount", example_amount)].

Definition example_refund : value :=
  Obj [("id", Str "216749f7-0016-50be-b000-078d43a63ae4");
       ("status", Str "succeeded");
       ("amount", Obj [("value", Str "1"); ("currency", Str "RUB")]);
       ("authorized_at", Str "2017-11-10T19:27:51.609Z");
       ("created_at", Str "2017-10-04T19:27:51.407Z");
       ("payment_id", example_payment_id)].

(** A server that answers every request with the same response. *)
Definition always (status : Z) (parsed : option value) : Network :=
  fun _ _ => HttpResponse status parsed.

Definition example_error : value :=
  Obj [("type", Str "error");
       ("code", Str "invalid_credentials");
       ("description", Str "Basic authentication failed")].

(** A configuration whose optional fields are all present and falsy. *)
Definition falsy_config : value :=
  Obj [("shopId", Str "your_shop_id");
       ("secretKey", Str "your_secret_key");
       ("base_host", Str "");
       ("base_path", Null);
       ("debug", Bool false);
       ("timeout", Number 0%float)].

(** * Properties *)

(** ** Promise chaining *)

Lemma then_fst {A B : Type} (p : Promise A) (f : A -> B) net w :
  fst (then_ p f net w) = fst (p net w).
Proof. unfold then_. destruct (p net w) as [w' [a | e]]; reflexivity. Qed.

Lemma then_snd {A B : Type} (p : Promise A) (f : A -> B) net w :
  snd (then_ p f net w) = settled_map f (snd (p net w)).
Proof. unfold then_. destruct (p net w) as [w' [a | e]]; reflexivity. Qed.

Lemma settle_success status data :
  is_2xx status = true -> settle (HttpResponse status (Some data)) = Resolved data.
Proof. intros H. unfold settle. rewrite H. reflexivity. Qed.

Lemma settle_api_error status parsed :
  is_2xx status = false ->
  settle (HttpResponse status parsed) = Rejected (APIError status parsed).
Proof. intros H. unfold settle. rewrite H. reflexivity. Qed.

Section FacadeProperties.
Context {platform : Platform}.

Lemma utils_request_fst m path data key net w :
  fst (utils_request m path data key net w)
  = {| this := this w;
       wire := wire w ++ [build_request (this w) m path data key] |}.
Proof. reflexivity. Qed.

Lemma utils_request_snd m path data key net w :
  snd (utils_request m path data key net w)
  = settle (net (wire w) (build_request (this w) m path data key)).
Proof. reflexivity. Qed.

(** C1. Whatever the payload and the idempotency key, [createPayment] puts
    exactly one request on the wire, a POST to the resource path
    [payments] under the client's base URL with the payload as body; when
    the answer is a success status with a JSON body, the promise resolves
    to the Payment built from that body, each field of the model being the
    response field of the same name. *)
Theorem createPayment_posts_once_and_wraps
  (payload idempotenceKey : value) (net : Network) (w : World) :
  let r := build_request (this w) POST "payments" payload idempotenceKey in
  fst (createPayment payload idempotenceKey net w)
  = {| this := this w; wire := wire w ++ [r] |}
  /\ method r = POST
  /\ uri r = js_add (root (this w)) (Str "payments")
  /\ body r = payload
  /\ forall status data,
       net (wire w) r = HttpResponse status (Some data) ->
       is_2xx status = true ->
       exists m : Payment,
         snd (createPayment payload idempotenceKey net w) = Resolved m
         /\ m = new_Payment (this w) data
         /\ payment_id m = field data "id"
         /\ payment_status m = field data "status"
         /\ payment_paid m = field data "paid"
         /\ payment_amount m = field data "amount"
         /\ payment_payment_method m = field data "payment_method"
         /\ payment_confirmation m = field data "confirmation"
         /\ payment_created_at m = field data "created_at"
         /\ payment_metadata m = field data "metadata"
         /\ payment_recipient m = field data "recipient".
Proof.
  intros r. unfold createPayment, _createPayment.
  rewrite then_fst, then_snd, utils_request_fst, utils_request_snd.
  fold r. repeat split.
  intros status data Hnet Hok.
  exists (new_Payment (this w) data).
  rewrite Hnet, (settle_success _ _ Hok). cbn. repeat split.
Qed.
(** C3. For every payment identifier [id] and every amount,
    [capturePayment(id, amount)] puts one POST on the wire, to the path
    [payments/{id}/capture] under the base URL, and its body is the object
    whose only property is [amount], bound to the amount argument as the
    caller gave it. With a base URL that is a string the URL is that string
    followed by the path; an identifier that is a number reaches the path
    as the platform prints it. *)
Theorem capturePayment_posts_amount_object
  (id : string) (amount idempotenceKey : value) (net : Network) (w : World) :
  let path := "payments/" ++ id ++ "/capture" in
  let r := build_request (this w) POST path (Obj [("amount", amount)])
             idempotenceKey in
  fst (capturePayment (Str id) amount idempotenceKey net w)
  = {| this := this w; wire := wire w ++ [r] |}
  /\ method r = POST
  /\ uri r = js_add (root (this w)) (Str path)
  /\ (forall base,
        root (this w) = Str base ->
        uri r = Str (base ++ "payments/" ++ id ++ "/capture"))
  /\ body r = Obj [("amount", amount)]
  /\ (forall n,
        fst (capturePayment (Number n) amount idempotenceKey net w)
        = {| this := this w;
             wire := wire w
                     ++ [build_request (this w) POST
                           ("payments/" ++ Number_toString n ++ "/capture")
                           (Obj [("amount", amount)]) idempotenceKey] |}).
Proof.
  intros path r. unfold capturePayment, _capturePayment.
  rewrite then_fst, utils_request_fst. repeat split.
  - intros base Hbase. cbn [uri r build_request]. rewrite Hbase. reflexivity.
  - intros n. rewrite then_fst, utils_request_fst. reflexivity.
Qed.

(** C4. [createRefund(paymentId, amount)] puts one POST on the wire, to
    [refunds] under the base URL, with the body
    [{amount, payment_id: paymentId}]; on a success status with a JSON body
    it resolves to the Refund built from that body. *)
Theorem createRefund_posts_body_and_wraps
  (paymentId amount idempotenceKey : value) (net : Network) (w : World) :
  let r := build_request (this w) POST "refunds"
             (Obj [("amount", amount); ("payment_id", paymentId)])
             idempotenceKey in
  fst (createRefund paymentId amount idempotenceKey net w)
  = {| this := this w; wire := wire w ++ [r] |}
  /\ method r = POST
  /\ uri r = js_add (root (this w)) (Str "refunds")
  /\ body r = Obj [("amount", amount); ("payment_id", paymentId)]
  /\ forall status data,
       net (wire w) r = HttpResponse status (Some data) ->
       is_2xx status = true ->
       snd (createRefund paymentId amount idempotenceKey net w)
       = Resolved (new_Refund (this w) data).
Proof.
  intros r. unfold createRefund, _createRefund.
  rewrite then_fst, then_snd, utils_request_fst, utils_request_snd.
  fold r. repeat split.
  intros status data Hnet Hok.
  rewrite Hnet, (settle_success _ _ Hok). reflexivity.
Qed.

(** C7. For every payment identifier [id], [getPayment(id)] puts one GET
    on the wire, to the path [payments/{id}] under the base URL, with the
    empty object as body; on a success status with a JSON body it resolves
    to the Payment built from that body. With a base URL that is a string
    the URL is that string followed by the path; an identifier that is a
    number reaches the path as the platform prints it. *)
Theorem getPayment_gets_with_empty_body
  (id : string) (idempotenceKey : value) (net : Network) (w : World) :
  let path := "payments/" ++ id in
  let r := build_request (this w) GET path (Obj []) idempotenceKey in
  fst (getPayment (Str id) idempotenceKey net w)
  = {| this := this w; wire := wire w ++ [r] |}
  /\ method r = GET
  /\ uri r = js_add (root (this w)) (Str path)
  /\ (forall base,
        root (this w) = Str base -> uri r = Str (base ++ "payments/" ++ id))
  /\ body r = Obj []
  /\ (forall status data,
        net (wire w) r = HttpResponse status (Some data) ->
        is_2xx status = true ->
        snd (getPayment (Str id) idempotenceKey net w)
        = Resolved (new_Payment (this w) data))
  /\ (forall n,
        fst (getPayment (Number n) idempotenceKey net w)
        = {| this := this w;
             wire := wire w
                     ++ [build_request (this w) GET
                           ("payments/" ++ Number_toString n) (Obj [])
                           idempotenceKey] |}).
Proof.
  intros path r. unfold getPayment, _getPaymentInfo.
  rewrite then_fst, then_snd, utils_request_fst, utils_request_snd.
  change (build_request (this w) GET ("payments/" ++ to_string (Str id))
            (Obj []) idempotenceKey) with r.
  repeat split.
  - intros base Hbase. cbn [uri r build_request]. rewrite Hbase. reflexivity.
  - intros status data Hnet Hok.
    rewrite Hnet, (settle_success _ _ Hok). reflexivity.
  - intros n. rewrite then_fst, utils_request_fst. reflexivity.
Qed.

(** *** All six operations *)

(** Every internal method is one call of the transport utility, with the
    idempotency key it was given. *)
Lemma raw_call_is_one_request (op : Operation) (idempotenceKey : value) :
  exists m path data,
    raw_call op idempotenceKey = utils_request m path data idempotenceKey.
Proof. destruct op; cbn; do 3 eexists; reflexivity. Qed.

(** A public method leaves the world of its internal method and maps the
    resolved value into a model. *)
Lemma public_call_world (op : Operation) (idempotenceKey : value) net w :
  fst (public_call op idempotenceKey net w)
  = fst (raw_call op idempotenceKey net w).
Proof.
  destruct op; cbn -[then_ utils_request];
    unfold createPayment, getPayment, capturePayment, cancelPayment,
      createRefund, getRefund; apply then_fst.
Qed.

Lemma public_call_rejection (op : Operation) (idempotenceKey : value) net w e :
  snd (raw_call op idempotenceKey net w) = Rejected e ->
  snd (public_call op idempotenceKey net w) = Rejected e.
Proof.
  intros H.
  destruct op; cbn -[then_ utils_request] in *;
    unfold createPayment, getPayment, capturePayment, cancelPayment,
      createRefund, getRefund; rewrite then_snd, H; reflexivity.
Qed.



(** C2. A public method whose internal call is rejected is rejected with
    the same error, after the same single request; and when the answer to
    that request has a status outside 200..299 the public method is
    rejected with the API error that carries this status and the parsed
    error body. *)
Theorem public_call_propagates_failure (op : Operation) (idempotenceKey : value) :
  (forall net w w' e,
     raw_call op idempotenceKey net w = (w', Rejected e) ->
     public_call op idempotenceKey net w = (w', Rejected e))
  /\ (forall net w r status parsed,
        fst (public_call op idempotenceKey net w)
        = {| this := this w; wire := wire w ++ [r] |} ->
        net (wire w) r = HttpResponse status parsed ->
        is_2xx status = false ->
        snd (public_call op idempotenceKey net w)
        = Rejected (APIError status parsed)).
Proof.
  split.
  - intros net w w' e H.
    rewrite (surjective_pairing (public_call op idempotenceKey net w)).
    rewrite public_call_world, (public_call_rejection op idempotenceKey net w e);
      rewrite H; reflexivity.
  - intros net w r status parsed Hw Hnet Hbad.
    rewrite public_call_world in Hw.
    apply public_call_rejection.
    destruct (raw_call_is_one_request op idempotenceKey) as (m & path & data & E).
    rewrite E in *. rewrite utils_request_fst in Hw.
    injection Hw as Hw. apply app_inv_head in Hw. injection Hw as <-.
    rewrite utils_request_snd, Hnet. apply settle_api_error, Hbad.
Qed.

Lemma public_call_settled (op : Operation) (idempotenceKey : value) net w :
  snd (public_call op idempotenceKey net w)
  = settled_map (model_of op (this w)) (snd (raw_call op idempotenceKey net w)).
Proof.
  destruct op; cbn -[then_ utils_request];
    unfold createPayment, getPayment, capturePayment, cancelPayment,
      createRefund, getRefund; rewrite then_snd;
    destruct (snd _); reflexivity.
Qed.

Lemma raw_call_keeps_client (op : Operation) (idempotenceKey : value) net w :
  this (fst (raw_call op idempotenceKey net w)) = this w.
Proof.
  destruct (raw_call_is_one_request op idempotenceKey) as (m & path & data & ->).
  reflexivity.
Qed.

Lemma session_keeps_client calls net : forall w, this (session calls net w) = this w.
Proof.
  induction calls as [| [op key] rest IH]; intros w; cbn [session].
  - reflexivity.
  - rewrite IH, public_call_world. apply raw_call_keeps_client.
Qed.

(** C9. No operation, internal or public, resolved or rejected, changes the
    client it is called on: shop id, secret key, base URL, debug flag and
    timeout are afterwards what they were before, and so they are after any
    run of operations. *)
Theorem configuration_is_never_written
  (op : Operation) (idempotenceKey : value)
  (calls : list (Operation * value)) (net : Network) (w : World) :
  this (fst (raw_call op idempotenceKey net w)) = this w
  /\ this (fst (public_call op idempotenceKey net w)) = this w
  /\ this (session calls net w) = this w.
Proof.
  rewrite public_call_world.
  repeat split; auto using raw_call_keeps_client, session_keeps_client.
Qed.
End FacadeProperties.

(** ** The constructor *)

Lemma js_or_falsy a b : truthy a = false -> js_or a b = b.
Proof. unfold js_or. intros ->. reflexivity. Qed.

Lemma js_or_truthy a b : truthy a = true -> js_or a b = a.
Proof. unfold js_or. intros ->. reflexivity. Qed.

Section ConstructorProperties.
Context {platform : Platform}.

Lemma js_add_strings h p : js_add (Str h) (Str p) = Str (h ++ p).
Proof. reflexivity. Qed.

(** The client built from a configuration object. *)
Lemma YandexCheckout_object props second :
  YandexCheckout (Obj props) second
  = Normal {|
      shopId := lookup props "shopId";
      secretKey := lookup props "secretKey";
      root := js_add (js_or (lookup props "base_host") DEFAULT_BASE_HOST)
                     (js_or (lookup props "base_path") DEFAULT_BASE_PATH);
      debug := js_or (lookup props "debug") DEFAULT_DEBUG;
      timeout := js_or (lookup props "timeout") DEFAULT_TIMEOUT |}.
Proof. reflexivity. Qed.

(** The client built from two positional values. *)
Lemma YandexCheckout_positional a b :
  typeof_object a = false ->
  YandexCheckout a b
  = Normal {|
      shopId := a;
      secretKey := b;
      root := Str "https://api.yookassa.ru/v3/";
      debug := Bool false;
      timeout := Number http_server_timeout |}.
Proof. intros H. unfold YandexCheckout. rewrite H. reflexivity. Qed.


(** C10. In a configuration object, an optional field that is present but
    falsy ([0], [NaN], the empty string, [false], [null]) is treated as if
    it were left out: the base URL takes the default host or path, the
    debug flag is [false] and the timeout is the platform default. *)
Theorem falsy_options_fall_back_to_defaults (props : list (string * value))
  (second : value) (c : Client) :
  YandexCheckout (Obj props) second = Normal c ->
  (truthy (lookup props "base_host") = false ->
   root c = js_add DEFAULT_BASE_HOST
              (js_or (lookup props "base_path") DEFAULT_BASE_PATH))
  /\ (truthy (lookup props "base_path") = false ->
      root c = js_add (js_or (lookup props "base_host") DEFAULT_BASE_HOST)
                 DEFAULT_BASE_PATH)
  /\ (truthy (lookup props "debug") = false -> debug c = DEFAULT_DEBUG)
  /\ (truthy (lookup props "timeout") = false -> timeout c = DEFAULT_TIMEOUT)
  /\ truthy (Number 0%float) = false
  /\ truthy (Str "") = false
  /\ truthy (Bool false) = false.
Proof.
  rewrite YandexCheckout_object. intros [= <-].
  cbn [root debug timeout].
  repeat split; intros H; rewrite (js_or_falsy _ _ H); reflexivity.
Qed.

(** C8. Nothing is validated locally. A configuration object gives a
    client whatever it holds, also without shop id and secret key, which
    are then [undefined]; so do two positional values, also when they are
    left out. No operation looks at its payload or its amount: the request
    leaves with them as they are, a success answer resolves the promise,
    and a rejection is always the one the transport derived from the
    answer, an API error when the status is not a success status. (The
    inputs are those on which no string conversion throws: host, path and
    identifiers that [printable] accepts, strings among them.) *)
Theorem nothing_is_validated_locally :
  (forall props second,
     printable (lookup props "base_host") = true ->
     printable (lookup props "base_path") = true ->
     exists c : Client,
       YandexCheckout (Obj props) second = Normal c
       /\ shopId c = lookup props "shopId"
       /\ secretKey c = lookup props "secretKey"
       /\ (lookup props "shopId" = Undefined -> shopId c = Undefined)
       /\ (lookup props "secretKey" = Undefined -> secretKey c = Undefined))
  /\ (forall a b,
        typeof_object a = false ->
        exists c : Client,
          YandexCheckout a b = Normal c /\ shopId c = a /\ secretKey c = b)
  /\ (forall payload key net w,
        fst (public_call (CreatePayment payload) key net w)
        = {| this := this w;
             wire := wire w
                     ++ [build_request (this w) POST "payments" payload key] |})
  /\ (forall op key net w,
        printable_operation op = true ->
        exists r : HttpRequest,
          fst (public_call op key net w)
          = {| this := this w; wire := wire w ++ [r] |}
          /\ (forall status data,
                net (wire w) r = HttpResponse status (Some data) ->
                is_2xx status = true ->
                snd (public_call op key net w)
                = Resolved (model_of op (this w) data))
          /\ (forall e,
                snd (public_call op key net w) = Rejected e ->
                settle (net (wire w) r) = Rejected e)
          /\ (forall status parsed,
                net (wire w) r = HttpResponse status parsed ->
                is_2xx status = false ->
                snd (public_call op key net w)
                = Rejected (APIError status parsed))).
Proof.
  repeat apply conj.
  - intros props second _ _. eexists.
    split; [apply YandexCheckout_object |]. cbn [shopId secretKey]. auto.
  - intros a b Ha. eexists.
    split; [apply YandexCheckout_positional, Ha |]. cbn. auto.
  - intros payload key net w. rewrite public_call_world. reflexivity.
  - intros op key net w _.
    destruct (raw_call_is_one_request op key) as (m & path & data & E).
    exists (build_request (this w) m path data key).
    rewrite public_call_world, public_call_settled, E.
    rewrite utils_request_fst, utils_request_snd.
    repeat split.
    + intros status d -> Hok. rewrite (settle_success _ _ Hok). reflexivity.
    + intros e. destruct (settle _); cbn; congruence.
    + intros status parsed -> Hbad. rewrite (settle_api_error _ _ Hbad). reflexivity.
Qed.
End ConstructorProperties.

(** ** The properties at the closed examples *)

(** The documented scenario: the payment comes back as a model with the
    identifier and the status of the answer. *)
Lemma createPayment_scenario :
  exists m : Payment,
    snd (createPayment (platform := node12) example_payload example_key
           (always 200 (Some example_payment)) example_world) = Resolved m
    /\ payment_id m = example_payment_id
    /\ payment_status m = Str "waiting_for_capture".
Proof.
  destruct (createPayment_posts_once_and_wraps (platform := node12)
              example_payload example_key
              (always 200 (Some example_payment)) example_world)
    as (_ & _ & _ & _ & H).
  destruct (H 200%Z example_payment eq_refl eq_refl)
    as (m & Hm & _ & Hid & Hstatus & _).
  exists m. split; [exact Hm | split; [exact Hid | exact Hstatus]].
Defined.

(** A refund of the example payment. *)
Lemma createRefund_scenario :
  snd (createRefund (platform := node12) example_payment_id example_amount
         example_key (always 200 (Some example_refund)) example_world)
  = Resolved (new_Refund example_client example_refund).
Proof.
  destruct (createRefund_posts_body_and_wraps (platform := node12)
              example_payment_id example_amount example_key
              (always 200 (Some example_refund)) example_world)
    as (_ & _ & _ & _ & H).
  exact (H 200%Z example_refund eq_refl eq_refl).
Defined.

(** Reading the example payment back, without an idempotency key: the
    request that leaves, and the model that comes back. *)
Lemma getPayment_scenario :
  let call :=
    getPayment (platform := node12) example_payment_id Undefined
      (always 200 (Some example_payment)) example_world in
  (exists r : HttpRequest,
     fst call = {| this := example_client; wire := [r] |}
     /\ method r = GET
     /\ uri r
        = Str "https://api.yookassa.ru/v3/payments/215d8da0-000f-50be-b000-0003308c89be"
     /\ body r = Obj [])
  /\ snd call = Resolved (new_Payment example_client example_payment).
Proof.
  intros call.
  destruct (getPayment_gets_with_empty_body (platform := node12)
              "215d8da0-000f-50be-b000-0003308c89be" Undefined
              (always 200 (Some example_payment)) example_world)
    as (Hwire & Hmethod & _ & Huri & Hbody & Hok & _).
  split.
  - eexists. split; [exact Hwire |].
    split; [exact Hmethod |].
    split; [exact (Huri _ eq_refl) | exact Hbody].
  - exact (Hok 200%Z example_payment eq_refl eq_refl).
Defined.

(** Capturing the example payment: the request that leaves. *)
Lemma capturePayment_scenario :
  exists r : HttpRequest,
    fst (capturePayment (platform := node12) example_payment_id example_amount
           example_key (always 200 (Some example_payment)) example_world)
    = {| this := example_client; wire := [r] |}
    /\ method r = POST
    /\ uri r
       = Str "https://api.yookassa.ru/v3/payments/215d8da0-000f-50be-b000-0003308c89be/capture"
    /\ body r = Obj [("amount", example_amount)].
Proof.
  destruct (capturePayment_posts_amount_object (platform := node12)
              "215d8da0-000f-50be-b000-0003308c89be" example_amount example_key
              (always 200 (Some example_payment)) example_world)
    as (Hwire & Hmethod & _ & Huri & Hbody & _).
  eexists. split; [exact Hwire |].
  split; [exact Hmethod |].
  split; [exact (Huri _ eq_refl) | exact Hbody].
Defined.

(** Wrong credentials: the 401 of the server reaches the caller as it is. *)
Lemma createPayment_unauthorized :
  let net := always 401 (Some example_error) in
  let op := CreatePayment example_payload in
  public_call (platform := node12) op example_key net example_world
  = (fst (raw_call (platform := node12) op example_key net example_world),
     Rejected (APIError 401 (Some example_error)))
  /\ snd (public_call (platform := node12) op example_key net example_world)
     = Rejected (APIError 401 (Some example_error)).
Proof.
  intros net op.
  destruct (public_call_propagates_failure (platform := node12) op example_key)
    as [Hsame Hstatus].
  split.
  - apply Hsame. reflexivity.
  - apply (Hstatus net example_world
             (build_request (platform := node12) example_client POST "payments"
                example_payload example_key));
      reflexivity.
Defined.


(** Every optional field present and falsy: the client is the default one. *)
Lemma falsy_config_scenario :
  YandexCheckout (platform := node12) falsy_config Undefined
  = Normal example_client
  /\ root example_client = Str "https://api.yookassa.ru/v3/"
  /\ debug example_client = Bool false
  /\ timeout example_client = Number 120000%float.
Proof.
  assert (E : YandexCheckout (platform := node12) falsy_config Undefined
              = Normal example_client) by reflexivity.
  destruct (falsy_options_fall_back_to_defaults (platform := node12)
              _ Undefined example_client E)
    as (Hhost & Hpath & Hdebug & Htimeout & _).
  split; [exact E |].
  split; [exact (Hhost eq_refl) |].
  split; [exact (Hdebug eq_refl) | exact (Htimeout eq_refl)].
Defined.

(** An empty configuration and an invalid payload: the client is built
    without credentials, the request leaves, and the 400 of the server is
    what the caller gets. *)
Lemma nothing_is_validated_scenario :
  (exists c : Client,
     YandexCheckout (platform := node12) (Obj []) Undefined = Normal c
     /\ shopId c = Undefined /\ secretKey c = Undefined)
  /\ (exists c : Client,
        YandexCheckout (platform := node12) Undefined Undefined = Normal c
        /\ shopId c = Undefined /\ secretKey c = Undefined)
  /\ snd (public_call (platform := node12) (CreatePayment (Str "not a payment"))
            Undefined (always 400 (Some example_error)) example_world)
     = Rejected (APIError 400 (Some example_error)).
Proof.
  destruct (nothing_is_validated_locally (platform := node12))
    as (Hobject & Hpositional & _ & Hops).
  split; [| split].
  - destruct (Hobject [] Undefined eq_refl eq_refl)
      as (c & Hc & _ & _ & Hshop & Hkey).
    exists c. split; [exact Hc |].
    split; [exact (Hshop eq_refl) | exact (Hkey eq_refl)].
  - exact (Hpositional Undefined Undefined eq_refl).
  - destruct (Hops (CreatePayment (Str "not a payment")) Undefined
                (always 400 (Some example_error)) example_world eq_refl)
      as (r & _ & _ & _ & Hbad).
    apply (Hbad 400%Z (Some example_error)); reflexivity.
Defined.

(** ** Checks on concrete inputs *)

Example capture_request_on_the_wire :
  wire (fst (capturePayment (platform := node12) example_payment_id
               example_amount example_key (always 200 (Some example_payment))
               example_world))
  = [{| method := POST;
        uri := Str "https://api.yookassa.ru/v3/payments/215d8da0-000f-50be-b000-0003308c89be/capture";
        auth_user := Str "your_shop_id";
        auth_pass := Str "your_secret_key";
        headers := [("Content-Type", Str "application/json");
                    ("Idempotence-Key", example_key)];
        body := Obj [("amount", example_amount)];
        request_timeout := Number 120000%float |}].
Proof. reflexivity. Qed.

Example get_request_without_key :
  map headers
    (wire (fst (getPayment (platform := node12) example_payment_id Undefined
                  (always 200 (Some example_payment)) example_world)))
  = [[("Content-Type", Str "application/json")]].
Proof. reflexivity. Qed.

Example positional_constructor :
  init (platform := node12) (Str "your_shop_id") (Str "your_secret_key")
  = Normal example_client.
Proof. reflexivity. Qed.

Example plus_adds_numbers_and_joins_strings :
  js_add (platform := node12) (Number 2%float) (Number 3%float) = Number 5%float
  /\ js_add (platform := node12) (Str "v") (Number 5%float) = Str "v5"
  /\ js_add (platform := node12) Null (Bool true) = Number 1%float.
Proof. repeat split. Qed.

Example malformed_success_body_is_a_transport_error :
  snd (getRefund (platform := node12) (Str "216749f7") Undefined
         (always 200 None) example_world)
  = Rejected (TransportError MalformedJSON).
Proof. reflexivity. Qed.

Example array_argument_prints_joined :
  to_string (platform := node12) (Arr [Str "a"; Null; Number 5%float; Arr []])
  = "a,,5,".
Proof. reflexivity. Qed.

(** * Further properties of the facade *)

(** ** Strings *)

Lemma list_ascii_of_string_app (a b : string) :
  list_ascii_of_string (a ++ b)
  = (list_ascii_of_string a ++ list_ascii_of_string b)%list.
Proof. induction a as [| ch a IH]; cbn; [reflexivity | now rewrite IH]. Qed.

Lemma list_ascii_of_string_inj (a b : string) :
  list_ascii_of_string a = list_ascii_of_string b -> a = b.
Proof.
  intros H.
  rewrite <- (string_of_list_ascii_of_string a),
    <- (string_of_list_ascii_of_string b).
  now rewrite H.
Qed.

Lemma append_inv_head (p a b : string) : p ++ a = p ++ b -> a = b.
Proof. induction p as [| ch p IH]; cbn; [auto | intros [= H]; auto]. Qed.

Lemma append_inv_tail (a b t : string) : a ++ t = b ++ t -> a = b.
Proof.
  intros H. apply list_ascii_of_string_inj.
  apply (f_equal list_ascii_of_string) in H.
  rewrite !list_ascii_of_string_app in H.
  now apply app_inv_tail in H.
Qed.

(** A capture path never is a cancel path: they end differently. *)
Lemma capture_is_not_cancel (a b : string) : a ++ "/capture" <> b ++ "/cancel".
Proof.
  intros H. apply (f_equal list_ascii_of_string) in H.
  rewrite !list_ascii_of_string_app in H.
  apply (f_equal (fun l => List.last l "000"%char)) in H.
  change (list_ascii_of_string "/capture")
    with (list_ascii_of_string "/captur" ++ ["e"%char])%list in H.
  change (list_ascii_of_string "/cancel")
    with (list_ascii_of_string "/cance" ++ ["l"%char])%list in H.
  rewrite !app_assoc, !last_last in H. discriminate H.
Qed.

(** ** The domain of the coercions *)

(** Induction on values, through the elements of arrays. *)
Lemma value_elements_ind (P : value -> Prop) :
  P Undefined -> P Null -> (forall b, P (Bool b)) -> (forall n, P (Number n)) ->
  (forall s, P (Str s)) ->
  (forall elems, Forall P elems -> P (Arr elems)) ->
  (forall props, P (Obj props)) ->
  forall v, P v.
Proof.
  intros HU HN HB HNum HS HA HO.
  fix IH 1. intros [| | b | n | s | elems | props].
  - exact HU.
  - exact HN.
  - apply HB.
  - apply HNum.
  - apply HS.
  - apply HA. induction elems as [| x rest IHrest]; constructor.
    + apply IH.
    + exact IHrest.
  - apply HO.
Qed.

Section CoercionDomain.
Context {platform : Platform}.

(** [to_string] is what ToString returns wherever it returns, and it
    returns exactly on the values that [printable] accepts; on the others
    it throws a [TypeError]. *)
Lemma ToString_printable (v : value) :
  ToString v = if printable v then Normal (to_string v) else Throw TypeError.
Proof.
  induction v as [| | [] | n | s | elems IH | props] using value_elements_ind;
    try reflexivity.
  - induction IH as [| x rest Hx Hrest IHrest]; [reflexivity |].
    cbn [printable forallb] in *.
    change (ToString (Arr (x :: rest)))
      with (bind_completion
              match x with
              | Undefined | Null => Normal ""
              | _ => ToString x
              end
              (fun sx =>
                 match rest with
                 | [] => Normal sx
                 | _ :: _ =>
                     bind_completion (ToString (Arr rest))
                       (fun srest => Normal (sx ++ "," ++ srest))
                 end)).
    change (to_string (Arr (x :: rest)))
      with (let sx := match x with
                      | Undefined | Null => ""
                      | _ => to_string x
                      end in
            match rest with
            | [] => sx
            | _ :: _ => sx ++ "," ++ to_string (Arr rest)
            end).
    rewrite IHrest.
    assert (Hhead :
              match x with
              | Undefined | Null => Normal ""
              | _ => ToString x
              end
              = if printable x
                then Normal match x with
                            | Undefined | Null => ""
                            | _ => to_string x
                            end
                else Throw TypeError).
    { destruct x; try reflexivity; exact Hx. }
    rewrite Hhead.
    destruct (printable x); [| reflexivity].
    destruct rest as [| y rest']; [reflexivity |].
    cbn [bind_completion andb].
    destruct (forallb printable (y :: rest')); reflexivity.
  - cbn. destruct (has_own props "toString"); reflexivity.
Qed.

(** A string prints as itself, a number as the platform prints it. *)
Lemma ToString_primitive (s : string) (n : float) :
  ToString (Str s) = Normal s /\ ToString (Number n) = Normal (Number_toString n).
Proof. split; reflexivity. Qed.
End CoercionDomain.

(** ** The remaining operations, and the operations together *)

Section FurtherFacadeProperties.
Context {platform : Platform}.

(** Adding a string on the right always concatenates. *)
Lemma js_add_str_r (a : value) (p : string) :
  js_add a (Str p) = Str (to_string (to_primitive a) ++ p).
Proof. destruct a as [| | [] | | | |]; reflexivity. Qed.

Lemma js_add_str_r_inj (a : value) (p q : string) :
  js_add a (Str p) = js_add a (Str q) -> p = q.
Proof.
  rewrite !js_add_str_r. intros [= H]. exact (append_inv_head _ _ _ H).
Qed.



Lemma singleton_target_inj (r1 r2 : HttpRequest) :
  [target r1] = [target r2] -> method r1 = method r2 /\ uri r1 = uri r2.
Proof. unfold target. intros [= Hm Hu]. split; assumption. Qed.

(** X3. The method and the URL of a request tell which operation made it:
    two operations on the same client that send to the same method and URL
    are of the same kind and, where they take an identifier, their
    identifiers print alike. No identifier turns one operation into
    another. *)
Theorem same_target_same_resource
  (op1 op2 : Operation) (key1 key2 : value) (net1 net2 : Network) (w : World) :
  map target (wire (fst (public_call op1 key1 net1 w)))
  = map target (wire (fst (public_call op2 key2 net2 w))) ->
  same_resource op1 op2.
Proof.
  rewrite !public_call_world.
  destruct op1, op2; cbn [raw_call];
    unfold _createPayment, _getPaymentInfo, _capturePayment, _cancelPayment,
      _createRefund, _getRefundInfo;
    rewrite !utils_request_fst; cbn [wire];
    rewrite !map_app; intros H; apply app_inv_head in H;
    apply singleton_target_inj in H; destruct H as [Hm Hu];
    cbn [method uri build_request] in Hm, Hu; try discriminate Hm;
    apply js_add_str_r_inj in Hu; cbn [same_resource];
    try exact I; try discriminate Hu.
  - exact (append_inv_head _ _ _ Hu).
  - apply append_inv_head in Hu. exact (append_inv_tail _ _ _ Hu).
  - apply append_inv_head in Hu. exact (capture_is_not_cancel _ _ Hu).
  - apply append_inv_head in Hu. symmetry in Hu.
    exact (capture_is_not_cancel _ _ Hu).
  - apply append_inv_head in Hu. exact (append_inv_tail _ _ _ Hu).
  - exact (append_inv_head _ _ _ Hu).
Qed.


(** X5. An identifier the caller leaves out is not noticed: it prints as
    [undefined] into the path, and the request leaves all the same; a
    refund without payment identifier carries [payment_id: undefined]. *)
Theorem omitted_identifier_is_sent_as_undefined
  (amount key : value) (net : Network) (w : World) :
  fst (getPayment Undefined key net w)
  = {| this := this w;
       wire := wire w
               ++ [build_request (this w) GET "payments/undefined" (Obj []) key] |}
  /\ fst (capturePayment Undefined amount key net w)
     = {| this := this w;
          wire := wire w
                  ++ [build_request (this w) POST "payments/undefined/capture"
                        (Obj [("amount", amount)]) key] |}
  /\ fst (cancelPayment Undefined key net w)
     = {| this := this w;
          wire := wire w
                  ++ [build_request (this w) POST "payments/undefined/cancel"
                        (Obj []) key] |}
  /\ fst (getRefund Undefined key net w)
     = {| this := this w;
          wire := wire w
                  ++ [build_request (this w) GET "refunds/undefined" (Obj []) key] |}
  /\ fst (createRefund Undefined amount key net w)
     = {| this := this w;
          wire := wire w
                  ++ [build_request (this w) POST "refunds"
                        (Obj [("amount", amount); ("payment_id", Undefined)])
                        key] |}.
Proof.
  unfold getPayment, capturePayment, cancelPayment, getRefund, createRefund.
  rewrite !then_fst. repeat split.
Qed.
End FurtherFacadeProperties.

(** ** The constructor, continued *)

Section FurtherConstructorProperties.
Context {platform : Platform}.

(** Adding to a string on the left always concatenates. *)
Lemma js_add_str_l (h : string) (b : value) :
  js_add (Str h) b = Str (h ++ to_string (to_primitive b)).
Proof. destruct b as [| | [] | | | |]; reflexivity. Qed.

Lemma YandexCheckout_array elems second :
  YandexCheckout (Arr elems) second = YandexCheckout (Obj []) second.
Proof. reflexivity. Qed.

(** X6. As long as converting host and path to a primitive does not
    throw, the constructor fails on exactly one input: a first argument
    that is [null], where the first property read throws a [TypeError].
    Every other pair of arguments gives a client. *)
Theorem constructor_throws_exactly_on_null (a b : value) :
  (forall props,
     a = Obj props ->
     printable (lookup props "base_host") = true
     /\ printable (lookup props "base_path") = true) ->
  (YandexCheckout a b = Throw TypeError <-> a = Null)
  /\ (a <> Null <-> exists c : Client, YandexCheckout a b = Normal c).
Proof.
  intros _.
  destruct a;
    try (split; split;
         [ rewrite YandexCheckout_positional by reflexivity; discriminate
         | discriminate
         | intros _; eexists; apply YandexCheckout_positional; reflexivity
         | discriminate ]).
  - split; split; try reflexivity.
    + intros H. contradiction.
    + intros [c Hc]. discriminate Hc.
  - rewrite YandexCheckout_array, YandexCheckout_object.
    split; split; try discriminate. intros _. eexists. reflexivity.
  - rewrite YandexCheckout_object.
    split; split; try discriminate. intros _. eexists. reflexivity.
Qed.

(** X7. The client depends on the six properties [shopId], [secretKey],
    [base_host], [base_path], [debug] and [timeout] of the configuration
    object and on nothing else: a second argument next to a configuration
    object is ignored, as are further properties and the order of the
    properties; an array counts as the empty configuration. *)
Theorem only_the_six_options_count
  (props props' : list (string * value)) (second second' : value) :
  (forall name, In name option_names -> lookup props name = lookup props' name) ->
  YandexCheckout (Obj props) second = YandexCheckout (Obj props') second'
  /\ forall elems, YandexCheckout (Arr elems) second = YandexCheckout (Obj []) second'.
Proof.
  intros H. split; [| reflexivity].
  rewrite !YandexCheckout_object.
  rewrite (H "shopId"), (H "secretKey"), (H "base_host"), (H "base_path"),
    (H "debug"), (H "timeout") by (cbn; tauto).
  reflexivity.
Qed.

(** X8. A truthy option is stored as it was given, without conversion, and
    so the debug flag of a client is [false] or truthy and its timeout is
    the platform default or truthy, whatever the arguments. *)
Theorem truthy_options_are_kept (a b : value) (c : Client) :
  YandexCheckout a b = Normal c ->
  (debug c = Bool false \/ truthy (debug c) = true)
  /\ (timeout c = DEFAULT_TIMEOUT \/ truthy (timeout c) = true)
  /\ forall props,
       a = Obj props ->
       (truthy (lookup props "debug") = true -> debug c = lookup props "debug")
       /\ (truthy (lookup props "timeout") = true ->
           timeout c = lookup props "timeout")
       /\ (truthy (lookup props "base_host") = true ->
           truthy (lookup props "base_path") = true ->
           root c = js_add (lookup props "base_host") (lookup props "base_path")).
Proof.
  assert (shape : forall v d, js_or v d = d \/ truthy (js_or v d) = true).
  { intros v d. unfold js_or. destruct (truthy v) eqn:E; auto. }
  intros H. destruct a;
    try (rewrite YandexCheckout_positional in H by reflexivity;
         injection H as <-; cbn [debug timeout];
         repeat split; auto; discriminate).
  - discriminate H.
  - rewrite YandexCheckout_array, YandexCheckout_object in H.
    injection H as <-. cbn. repeat split; auto; discriminate.
  - rewrite YandexCheckout_object in H. injection H as <-.
    cbn [debug timeout root]. repeat split; try apply shape.
    + injection H as <-. intros Hd. apply js_or_truthy, Hd.
    + injection H as <-. intros Ht. apply js_or_truthy, Ht.
    + injection H as <-. intros Hh Hp.
      rewrite (js_or_truthy _ _ Hh), (js_or_truthy _ _ Hp). reflexivity.
Qed.

(** X9. As long as the host is left to its default, the base URL is a
    string that starts with [https://api.yookassa.ru], and as long as the
    path is left to its default it is a string that ends with [/v3/],
    whatever the other of the two options is. *)
Theorem default_host_and_path_frame_the_base_url
  (props : list (string * value)) (second : value) (c : Client) :
  YandexCheckout (Obj props) second = Normal c ->
  (truthy (lookup props "base_host") = false ->
   exists rest, root c = Str ("https://api.yookassa.ru" ++ rest))
  /\ (truthy (lookup props "base_path") = false ->
      exists front, root c = Str (front ++ "/v3/")).
Proof.
  rewrite YandexCheckout_object. intros [= <-]. cbn [root]. split; intros H.
  - rewrite (js_or_falsy _ _ H). unfold DEFAULT_BASE_HOST.
    rewrite js_add_str_l. eexists. reflexivity.
  - rewrite (js_or_falsy _ _ H). unfold DEFAULT_BASE_PATH.
    rewrite js_add_str_r. eexists. reflexivity.
Qed.
End FurtherConstructorProperties.

(** ** The further properties at closed examples *)

(** Reading one payment twice, with and without key, whatever the answers. *)
Lemma same_target_scenario :
  same_resource (platform := node12)
    (GetPayment example_payment_id) (GetPayment example_payment_id).
Proof.
  apply (same_target_same_resource (platform := node12)
           (GetPayment example_payment_id) (GetPayment example_payment_id)
           example_key Undefined
           (always 200 (Some example_payment)) (always 401 None) example_world).
  reflexivity.
Defined.

Lemma constructor_null_scenario :
  YandexCheckout (platform := node12) Null (Str "your_secret_key") = Throw TypeError
  /\ (exists c : Client,
        YandexCheckout (platform := node12) (Number 5%float) Undefined = Normal c)
  /\ (exists c : Client,
        YandexCheckout (platform := node12)
          (Obj [("base_host", Obj [("host", Str "sandbox.example")])])
          Undefined = Normal c).
Proof.
  split; [| split].
  - apply (proj1 (constructor_throws_exactly_on_null (platform := node12)
                    Null (Str "your_secret_key")
                    ltac:(intros props; discriminate))).
    reflexivity.
  - apply (proj2 (constructor_throws_exactly_on_null (platform := node12)
                    (Number 5%float) Undefined
                    ltac:(intros props; discriminate))).
    discriminate.
  - apply (proj2 (constructor_throws_exactly_on_null (platform := node12)
                    (Obj [("base_host", Obj [("host", Str "sandbox.example")])])
                    Undefined
                    ltac:(intros props [= <-]; split; reflexivity))).
    discriminate.
Defined.

(** A configuration with a comment and a stray second argument. *)
Lemma only_the_six_options_scenario :
  YandexCheckout (platform := node12)
    (Obj [("comment", Str "staging"); ("secretKey", Str "your_secret_key");
          ("shopId", Str "your_shop_id")]) (Str "ignored")
  = YandexCheckout (platform := node12)
      (Obj [("shopId", Str "your_shop_id");
            ("secretKey", Str "your_secret_key")]) Undefined.
Proof.
  apply (only_the_six_options_count (platform := node12)).
  intros name [<- | [<- | [<- | [<- | [<- | [<- | []]]]]]]; reflexivity.
Defined.

Lemma truthy_options_scenario :
  let c := {| shopId := Undefined;
              secretKey := Undefined;
              root := Str "https://api.yookassa.ru/v3/";
              debug := Str "yes";
              timeout := Number 5%float |} in
  debug c = Str "yes" /\ timeout c = Number 5%float.
Proof.
  intros c.
  destruct (truthy_options_are_kept (platform := node12)
              (Obj [("debug", Str "yes"); ("timeout", Number 5%float)])
              Undefined c eq_refl)
    as (_ & _ & H).
  destruct (H _ eq_refl) as (Hd & Ht & _).
  split; [exact (Hd eq_refl) | exact (Ht eq_refl)].
Defined.

(** A numeric path under the default host, a numeric host over the default
    path. *)
Lemma default_frame_scenario :
  (exists rest, root {| shopId := Undefined;
                        secretKey := Undefined;
                        root := Str "https://api.yookassa.ru5";
                        debug := Bool false;
                        timeout := Number 120000%float |}
                = Str ("https://api.yookassa.ru" ++ rest))
  /\ (exists front, root {| shopId := Undefined;
                            secretKey := Undefined;
                            root := Str "5/v3/";
                            debug := Bool false;
                            timeout := Number 120000%float |}
                    = Str (front ++ "/v3/")).
Proof.
  split.
  - apply (proj1 (default_host_and_path_frame_the_base_url (platform := node12)
                    [("base_path", Number 5%float)] Undefined _ eq_refl)).
    reflexivity.
  - apply (proj2 (default_host_and_path_frame_the_base_url (platform := node12)
                    [("base_host", Number 5%float)] Undefined _ eq_refl)).
    reflexivity.
Defined.
